(** * nestjs-ldap: a shallow embedding of [src/lib/ldap.service.ts]

    Definitions:

    - [JS]: the few pieces of the JavaScript runtime the service relies on
      (string replacement with substitution patterns, [parseInt],
      [Date.UTC], base64 decoding of [Buffer.from]).
    - [Normalizer]: the pure attribute functions [GUIDtoString],
      [fromLDAPString] and [sanitizeInput].
    - [Service]: the stateful operations ([adminBind], [search], [findUser],
      [searchByDN], [modify], [authenticate]) written in a state-and-error
      monad over the admin-connection flag, the cache and the heap of
      caller-owned [Change] objects.
    - [Reference]: what the properties are measured against (the dashed GUID
      form, civil dates, escaped filter values, frames of the state).
    - [Scenario]: a small directory on which the operations run.

    Properties: [NormalizerFacts] and [ServiceFacts].

    Strings are sequences of 8-bit code units; numbers that the code only
    uses as small integers are in [Z], with [None] standing for [NaN]. The
    logger is left out: it never changes the control flow. *)

From Stdlib Require Import ZArith NArith String Ascii List Lia Bool.
From Stdlib.Strings Require Import Byte.
From stdpp Require Import base option strings gmap list.

Local Open Scope string_scope.
Local Open Scope Z_scope.
#[local] Set Warnings "-register-all".

(* ===================================================================== *)
(** ** The JavaScript runtime functions used by the service *)
(* ===================================================================== *)

Module JS.

(** A JavaScript number that the service computes with: an integer, or
    [NaN] as [None]. *)
Definition Number := option Z.

Definition NaN : Number := None.

(** [x - 1] and friends: arithmetic is [NaN]-propagating. *)
Definition num_sub (x : Number) (k : Z) : Number := (fun v => v - k) <$> x.

(** [ToString(undefined)] is ["undefined"]; array holes read as [undefined]. *)
Definition ToString_opt (x : option string) : string :=
  match x with
  | Some s => s
  | None => "undefined"
  end.

Definition is_digit (c : ascii) : bool :=
  ((48 <=? nat_of_ascii c) && (nat_of_ascii c <=? 57))%nat.

Definition digit_value (c : ascii) : Z := Z.of_nat (nat_of_ascii c) - 48.

(** White space skipped by [parseInt] (the 8-bit part of it). *)
Definition is_space (c : ascii) : bool :=
  let n := nat_of_ascii c in
  ((n =? 32) || (n =? 9) || (n =? 10) || (n =? 11) || (n =? 12) || (n =? 13)
   || (n =? 160))%nat.

Fixpoint skip_spaces (s : string) : string :=
  match s with
  | String c r => if is_space c then skip_spaces r else s
  | EmptyString => EmptyString
  end.

(** The longest prefix of decimal digits, as a number; [acc] is [None] until
    a first digit has been read. *)
Fixpoint parse_digits (s : string) (acc : Number) : Number :=
  match s with
  | String c r =>
      if is_digit c
      then parse_digits r (Some (10 * default 0 acc + digit_value c))
      else acc
  | EmptyString => acc
  end.

(** [Number.parseInt(s, 10)]. *)
Definition parseInt10 (s : string) : Number :=
  match skip_spaces s with
  | String "-" r => Z.opp <$> parse_digits r None
  | String "+" r => parse_digits r None
  | r => parse_digits r None
  end.

(** *** Dates (ECMAScript time values, milliseconds since the epoch) *)

Definition msPerDay : Z := 86400000.

Definition DaysInYear_is_leap (y : Z) : bool :=
  if negb (y mod 4 =? 0) then false
  else if negb (y mod 100 =? 0) then true
  else if negb (y mod 400 =? 0) then false
  else true.

Definition DayFromYear (y : Z) : Z :=
  365 * (y - 1970) + (y - 1969) / 4 - (y - 1901) / 100 + (y - 1601) / 400.

(** Day number, within its year, of the first day of month [mn] (0-based). *)
Definition month_start (leap : bool) (mn : Z) : Z :=
  let l := if leap then 1 else 0 in
  match mn with
  | 0 => 0
  | 1 => 31
  | 2 => 59 + l
  | 3 => 90 + l
  | 4 => 120 + l
  | 5 => 151 + l
  | 6 => 181 + l
  | 7 => 212 + l
  | 8 => 243 + l
  | 9 => 273 + l
  | 10 => 304 + l
  | _ => 334 + l
  end.

Definition MakeDay (year month date : Z) : Z :=
  let ym := year + month / 12 in
  let mn := month mod 12 in
  DayFromYear ym + month_start (DaysInYear_is_leap ym) mn + date - 1.

Definition MakeTime (hour min sec ms : Z) : Z :=
  hour * 3600000 + min * 60000 + sec * 1000 + ms.

Definition MakeDate (day time : Z) : Z := day * msPerDay + time.

Definition TimeClip (t : Number) : Number :=
  match t with
  | Some v => if 8640000000000000 <? Z.abs v then NaN else Some v
  | None => NaN
  end.

Definition MakeFullYear (y : Z) : Z :=
  if (0 <=? y) && (y <=? 99) then 1900 + y else y.

(** [Date.UTC(year, month, date, hours, minutes, seconds)]. *)
Definition Date_UTC (year month date hours minutes seconds : Number) : Number :=
  match year, month, date, hours, minutes, seconds with
  | Some y, Some m, Some dt, Some h, Some mi, Some s =>
      TimeClip (Some (MakeDate (MakeDay (MakeFullYear y) m dt) (MakeTime h mi s 0)))
  | _, _, _, _, _, _ => NaN
  end.

(** A [Date] object: its time value, [NaN] for an invalid date. *)
Record Date := new_Date_raw { time_value : Number }.

Definition new_Date (tv : Number) : Date := new_Date_raw (TimeClip tv).

Definition InvalidDate : Date := new_Date_raw NaN.

(** *** Regular-expression helpers *)

(** [s.match(/\d\d/g)]: all non-overlapping pairs of digits, left to right;
    [null] when there is none. *)
Fixpoint digit_pairs (s : string) : list string :=
  match s with
  | String c1 (String c2 r as t) =>
      if is_digit c1 && is_digit c2
      then String c1 (String c2 EmptyString) :: digit_pairs r
      else digit_pairs t
  | _ => []
  end.

Definition match_digit_pairs (s : string) : option (list string) :=
  match digit_pairs s with
  | [] => None
  | b => Some b
  end.





(** *** [String.prototype.replace] with a global pattern that matches a fixed
    text, and a replacement string *)

Fixpoint drop_string (n : nat) (s : string) : string :=
  match n, s with
  | O, _ => s
  | S k, String _ r => drop_string k r
  | S _, EmptyString => EmptyString
  end.

Fixpoint take_string (n : nat) (s : string) : string :=
  match n, s with
  | S k, String c r => String c (take_string k r)
  | _, _ => EmptyString
  end.

(** [GetSubstitution] for a pattern without capture groups: [$$] is a
    dollar, [$&] the matched text, [$`] the text before the match, [$'] the
    text after it; any other [$] stays. *)
Fixpoint GetSubstitution (matched str : string) (position : nat)
    (replacement : string) : string :=
  match replacement with
  | EmptyString => EmptyString
  | String "$" (String c r as t) =>
      if Ascii.eqb c "$" then String "$" (GetSubstitution matched str position r)
      else if Ascii.eqb c "&" then matched +:+ GetSubstitution matched str position r
      else if Ascii.eqb c "`"
           then take_string position str +:+ GetSubstitution matched str position r
      else if Ascii.eqb c "'"
           then drop_string (position + String.length matched) str
                +:+ GetSubstitution matched str position r
      else String "$" (GetSubstitution matched str position t)
  | String c r => String c (GetSubstitution matched str position r)
  end.

(** The scan: [rest] is the unread suffix of [str], [position] its offset and
    [skip] the number of characters of a match still to be consumed. *)
Fixpoint replace_scan (pattern replacement str rest : string)
    (position skip : nat) : string :=
  match rest with
  | EmptyString => EmptyString
  | String c r =>
      match skip with
      | S k => replace_scan pattern replacement str r (S position) k
      | O =>
          if String.prefix pattern rest
          then GetSubstitution pattern str position replacement
               +:+ replace_scan pattern replacement str r (S position)
                     (String.length pattern - 1)
          else String c (replace_scan pattern replacement str r (S position) O)
      end
  end.

(** [str.replace(/pattern/g, replacement)] for a non-empty literal
    [pattern]. *)
Definition replace_all (pattern replacement str : string) : string :=
  replace_scan pattern replacement str str 0 0.

(** *** [Buffer.from(s, 'base64')] and [buf.toString('hex')] *)










(** Truthiness of a string: non-empty. *)
Definition truthy_string (s : string) : bool :=
  match s with
  | EmptyString => false
  | _ => true
  end.

End JS.

(* ===================================================================== *)
(** ** Attribute normalisation: [GUIDtoString], [fromLDAPString],
       [sanitizeInput] *)
(* ===================================================================== *)

Module Normalizer.
Import JS.



(** [fromLDAPString]: [null] is [None]. *)
Definition fromLDAPString (string : string) : option Date :=
  match match_digit_pairs string with
  | None => None
  | Some b =>
      Some (new_Date
              (Date_UTC
                 (parseInt10 (ToString_opt (b !! 0%nat) +:+ ToString_opt (b !! 1%nat)))
                 (num_sub (parseInt10 (ToString_opt (b !! 2%nat))) 1)
                 (parseInt10 (ToString_opt (b !! 3%nat)))
                 (parseInt10 (ToString_opt (b !! 4%nat)))
                 (parseInt10 (ToString_opt (b !! 5%nat)))
                 (parseInt10 (ToString_opt (b !! 6%nat)))))
  end.

Definition NUL : string := String Ascii.zero EmptyString.

(** [sanitizeInput]: six global replacements, in the order of the source. *)
Definition sanitizeInput (input : string) : string :=
  replace_all "/" "\2f"
    (replace_all NUL "\00"
       (replace_all "\" "\5c"
          (replace_all ")" "\29"
             (replace_all "(" "\28"
                (replace_all "*" "\2a" input))))).

(** The filter of [findUser]:
    [searchFilter.replace(/{{username}}/g, sanitizeInput(username))]. *)
Definition user_search_filter (searchFilter username : string) : string :=
  replace_all "{{username}}" (sanitizeInput username) searchFilter.

End Normalizer.

(* ===================================================================== *)
(** ** The service: data model *)
(* ===================================================================== *)

Module Service.
Import JS Normalizer.

(** [const LDAP_PASSWORD_NULL] *)
Definition LDAP_PASSWORD_NULL : string := "nCN34c23~_@093429!*%3w32-23787".

(** Attribute values of a search-result object. A multi-valued attribute is
    an array of strings, the time stamps are [Date | null], and [groups]
    holds the objects of the group search. *)
Inductive Value :=
| VString (s : string)
| VStrings (l : list string)
| VDate (d : option Date)
| VEntries (es : list (list (string * Value))).

(** [Ldap.SearchEntryObject]: properties in insertion order. *)
Definition Entry := list (string * Value).

(** [o[k]]; [None] is [undefined]. *)
Fixpoint prop (o : Entry) (k : string) : option Value :=
  match o with
  | [] => None
  | (k', v) :: r => if String.eqb k' k then Some v else prop r k
  end.

(** [o[k] = v]: an existing property keeps its place, a new one goes last. *)
Fixpoint set_prop (o : Entry) (k : string) (v : Value) : Entry :=
  match o with
  | [] => [(k, v)]
  | (k', v') :: r =>
      if String.eqb k' k then (k, v) :: r else (k', v') :: set_prop r k v
  end.

Fixpoint remove_prop (o : Entry) (k : string) : Entry :=
  match o with
  | [] => []
  | (k', v') :: r =>
      if String.eqb k' k then remove_prop r k else (k', v') :: remove_prop r k
  end.

(** Truthiness of a property value. *)
Definition truthy (v : option Value) : bool :=
  match v with
  | None => false
  | Some (VString s) => truthy_string s
  | Some (VDate None) => false
  | Some _ => true
  end.

Definition truthy_opt (s : option string) : bool :=
  match s with
  | Some s => truthy_string s
  | None => false
  end.

(** [a || b] on an optional string. *)
Definition or_default (a : option string) (b : string) : string :=
  match a with
  | Some s => if truthy_string s then s else b
  | None => b
  end.

(** [LDAPCache]: [{ user, password }]. *)
Record LDAPCache := { user : Entry; password : string }.

(** A [Change] of the modify operation. The class lives in
    [./ldap/change]; the service reads [modification.type] and writes
    [modification.vals]. *)
Inductive Vals :=
| ValString (s : string)
| ValStrings (l : list string)
| ValBuffer (bs : list byte).

Record Modification := { type : string; vals : Vals }.

Record Change := { operation : string; modification : Modification }.

Record SearchOptions := {
  filter : option string;
  scope : string;
  attributes : list string;
  timeLimit : option Z;
  sizeLimit : option Z;
}.

(** Which lookup an ambiguous result belongs to. *)
Inductive LookupKind := ByUsername | ByDN.

(** The errors the service rejects with. Messages that interpolate values
    keep the values. *)
Inductive Error :=
| JsError (message : string)
  (** [new Error(message)] *)
| NoSuchObjectError
  (** [new Ldap.NoSuchObjectError()] *)
| UnexpectedMatches (n : nat) (subject : string) (kind : LookupKind)
  (** [new Error(`unexpected number of matches (${n}) for "${subject}" ...`)] *)
| EmptySearch (searchBase : string) (options : SearchOptions)
  (** [new Error(`The LDAP server has empty search: ...`)] *)
| NonZeroStatus (status : Z)
  (** [new Error(`non-zero status from LDAP search: ${status}`)] *)
| NotFoundUser (username : string)
  (** [new Error(`Not found user: "${username}"`)] *)
| LdapError (code : string).
  (** an error handed over by the directory client, passed on as it is *)

Inductive Result (A : Type) :=
| Ok (a : A)
| Err (e : Error).
Arguments Ok {A} a.
Arguments Err {A} e.

(** How a search stream of the client ends. *)
Inductive StreamEnd :=
| StreamError (error : Error)
| StreamStatus (status : Z).

(** What [adminClient.search] answers: an error in the callback, a result
    that is not an emitter, or a stream of entries. The entries are the
    objects the [searchEntry] handler pushes to [items]. *)
Inductive SearchResponse :=
| SearchFailed (searchError : Error)
| SearchNotObject
| SearchStream (items : list Entry) (ending : StreamEnd).

(** The two connections of the directory client. *)
Record Directory := {
  admin_bind : string -> string -> option Error;
  admin_search : string -> SearchOptions -> SearchResponse;
  admin_modify : string -> list Change -> option Error;
  user_bind : option Value -> string -> option Error;
  user_modify : string -> list Change -> option Error;
}.

(** Library functions the service calls and this development leaves open. *)
Record Runtime := {
  JSON_stringify : Entry -> string;
  Date_toString : Date -> string;
  bcrypt_hashSync : string -> string -> string;
  bcrypt_compareSync : string -> string -> bool;
}.

(** [LdapModuleOptions], the part the operations below read.
    [groupSearchFilter] is the function the constructor leaves there. *)
Record LdapModuleOptions := {
  bindDN : option string;
  bindCredentials : string;
  reconnect : bool;
  searchBase : string;
  searchFilter : string;
  searchScope : string;
  searchAttributes : option (list string);
  optTimeLimit : option Z;
  optSizeLimit : option Z;
  groupSearchBase : option string;
  groupSearchFilter : option (Entry -> string);
  groupSearchScope : string;
  groupSearchAttributes : option (list string);
  bindProperty : option string;
}.

(** The read-only fields of an [LdapService] instance. [ldapADattributes] is
    the constant of [./ldap.interface]. *)
Record Env := {
  options : LdapModuleOptions;
  salt : string;
  ttl : Z;
  ldapADattributes : list string;
  runtime : Runtime;
  client : Directory;
}.

(** References to heap-allocated [Change] objects. *)
Definition loc := nat.

Inductive Event :=
| CacheGet (key : string)
| CacheSet (key : string) (value : LDAPCache) (ttl : Z)
| CacheDel (key : string)
| AdminBind (dn credentials : string)
| AdminSearch (searchBase : string) (options : SearchOptions)
| AdminModify (dn : string) (data : list Change)
| UserBind (name : option Value) (password : string)
| UserModify (dn : string) (data : list Change).

(** A background task started and not awaited: the re-authentication of
    [authenticate], with the values it captured. A task runs as a whole,
    some time after the operation that started it has returned. *)
Inductive Task :=
| Refresh (username password : string) (cached : LDAPCache).

(** The mutable world of one service instance.
    - [adminBound]: the flag of the admin connection;
    - [reconnectPending]: the [once('installReconnectListener')] handler is
      still registered; [connectListeners] counts the [connect] handlers it
      has installed on the admin client;
    - [userCache]: the store, [None] when no cache is configured;
    - [heap]: the [Change] objects callers hold references to;
    - [spawned]: background tasks started so far;
    - [trace]: the calls made to the cache and to the directory, oldest
      first. *)
Record State := {
  adminBound : bool;
  reconnectPending : bool;
  connectListeners : nat;
  userCache : option (gmap string LDAPCache);
  heap : gmap loc Change;
  spawned : list Task;
  trace : list Event;
}.

Definition set_adminBound (b : bool) (s : State) : State :=
  {| adminBound := b; reconnectPending := reconnectPending s;
     connectListeners := connectListeners s; userCache := userCache s;
     heap := heap s; spawned := spawned s; trace := trace s |}.

Definition set_userCache (c : option (gmap string LDAPCache)) (s : State) : State :=
  {| adminBound := adminBound s; reconnectPending := reconnectPending s;
     connectListeners := connectListeners s; userCache := c;
     heap := heap s; spawned := spawned s; trace := trace s |}.

Definition set_heap (h : gmap loc Change) (s : State) : State :=
  {| adminBound := adminBound s; reconnectPending := reconnectPending s;
     connectListeners := connectListeners s; userCache := userCache s;
     heap := h; spawned := spawned s; trace := trace s |}.

Definition add_task (t : Task) (s : State) : State :=
  {| adminBound := adminBound s; reconnectPending := reconnectPending s;
     connectListeners := connectListeners s; userCache := userCache s;
     heap := heap s; spawned := spawned s ++ [t]; trace := trace s |}.

Definition add_event (e : Event) (s : State) : State :=
  {| adminBound := adminBound s; reconnectPending := reconnectPending s;
     connectListeners := connectListeners s; userCache := userCache s;
     heap := heap s; spawned := spawned s; trace := trace s ++ [e] |}.

(** [this.emit('installReconnectListener')]: the handler registered with
    [once] runs at the first emission only. *)
Definition emit_installReconnectListener (s : State) : State :=
  if reconnectPending s
  then {| adminBound := adminBound s; reconnectPending := false;
          connectListeners := S (connectListeners s); userCache := userCache s;
          heap := heap s; spawned := spawned s; trace := trace s |}
  else s.

(** *** The monad of the asynchronous operations: state, and rejection *)

Definition M (A : Type) : Type := State -> Result A * State.

Definition ret {A} (a : A) : M A := fun s => (Ok a, s).

Definition throw {A} (e : Error) : M A := fun s => (Err e, s).

Definition bind {A B} (c : M A) (k : A -> M B) : M B :=
  fun s =>
    match c s with
    | (Ok a, s') => k a s'
    | (Err e, s') => (Err e, s')
    end.

(** [try { c } catch (error) { h error }]; the effects of [c] stay. *)
Definition try_catch {A} (c : M A) (h : Error -> M A) : M A :=
  fun s =>
    match c s with
    | (Ok a, s') => (Ok a, s')
    | (Err e, s') => h e s'
    end.

Definition update (f : State -> State) : M unit := fun s => (Ok tt, f s).

Definition gets {A} (f : State -> A) : M A := fun s => (Ok (f s), s).

Declare Scope service_scope.
Delimit Scope service_scope with service.
Notation "x <-- c ;; k" := (bind c (fun x => k))
  (at level 100, c at next level, right associativity) : service_scope.
Notation "c ;;; k" := (bind c (fun _ => k))
  (at level 100, k at level 200, right associativity) : service_scope.
Local Open Scope service_scope.

(** A promise settles once: later [resolve] and [reject] calls are
    ignored. *)
Definition settle {A} (current : option (Result A)) (r : Result A)
    : option (Result A) :=
  match current with
  | Some _ => current
  | None => Some r
  end.


(* ===================================================================== *)
(** ** The service: operations *)
(* ===================================================================== *)

Section Operations.

Variable env : Env.

Let opts := options env.
Let dir := client env.
Let rt := runtime env.

(** [`${v}`] for a property value. *)
Definition ToString (v : option Value) : string :=
  match v with
  | None => "undefined"
  | Some (VString s) => s
  | Some (VStrings l) => String.concat "," l
  | Some (VDate None) => "null"
  | Some (VDate (Some d)) => Date_toString rt d
  | Some (VEntries es) => String.concat "," (map (fun _ => "[object Object]") es)
  end.

(** *** The cache store *)

Definition cache_get (key : string) : M (option LDAPCache) :=
  fun s => (Ok (userCache s ≫= fun c => c !! key), add_event (CacheGet key) s).

Definition cache_set (key : string) (value : LDAPCache) : M unit :=
  update (fun s =>
    add_event (CacheSet key value (ttl env))
      (set_userCache (insert key value <$> userCache s) s)).

Definition cache_del (key : string) : M unit :=
  update (fun s =>
    add_event (CacheDel key) (set_userCache (delete key <$> userCache s) s)).

Definition has_cache (s : State) : bool :=
  match userCache s with
  | Some _ => true
  | None => false
  end.

(** [cached && cached.user && cached.user.sAMAccountName] *)
Definition cached_user_valid (cached : option LDAPCache) : bool :=
  match cached with
  | Some c => truthy (prop (user c) "sAMAccountName")
  | None => false
  end.

(** The block that opens [findUser], [searchByUsername] and [searchByDN]:
    [if (cache && this.userCache) { const cached = await get(key); if (...)
    return cached.user }]. [Some user] is the early return. *)
Definition cache_probe (key : string) (cache : bool) : M (option Entry) :=
  configured <-- gets has_cache ;;
  if cache && configured
  then cached <-- cache_get key ;;
       match cached with
       | Some c => if cached_user_valid cached then ret (Some (user c)) else ret None
       | None => ret None
       end
  else ret None.

(** *** The admin session *)

(** [onConnectAdmin] *)
Definition onConnectAdmin : M bool :=
  match bindDN opts with
  | None =>
      update (set_adminBound false) ;;;
      throw (JsError "bindDN is undefined")
  | Some dn =>
      update (add_event (AdminBind dn (bindCredentials opts))) ;;;
      match admin_bind dir dn (bindCredentials opts) with
      | Some error =>
          update (set_adminBound false) ;;;
          throw error
      | None =>
          update (set_adminBound true) ;;;
          (if reconnect opts then update emit_installReconnectListener else ret tt) ;;;
          ret true
      end
  end.

(** [adminBind]: [this.adminBound ? true : this.onConnectAdmin(...)] *)
Definition adminBind : M bool :=
  fun s => if adminBound s then (Ok true, s) else onConnectAdmin s.

(** [handleErrorAdmin]: a connection-level error of the admin client. *)
Definition handleErrorAdmin : M unit := update (set_adminBound false).

(** [search] *)
Definition search (searchBase : string) (options : SearchOptions)
    : M (option (list Entry)) :=
  adminBind ;;;
  update (add_event (AdminSearch searchBase options)) ;;;
  match admin_search dir searchBase options with
  | SearchFailed searchError => throw searchError
  | SearchNotObject => throw (EmptySearch searchBase options)
  | SearchStream items (StreamError error) => throw error
  | SearchStream items (StreamStatus status) =>
      if status =? 0 then ret (Some items) else throw (NonZeroStatus status)
  end.

(** *** Lookups *)

Definition findUser_options (username : string) : SearchOptions :=
  {| filter := Some (user_search_filter (searchFilter opts) username);
     scope := searchScope opts;
     attributes := default (ldapADattributes env) (searchAttributes opts);
     timeLimit := optTimeLimit opts;
     sizeLimit := optSizeLimit opts |}.

(** [findUser] *)
Definition findUser (username : string) (cache : bool) : M (option Entry) :=
  if negb (truthy_string username) then throw (JsError "empty username")
  else
    hit <-- cache_probe username cache ;;
    match hit with
    | Some cached => ret (Some cached)
    | None =>
        result <-- search (searchBase opts) (findUser_options username) ;;
        match result with
        | None => throw NoSuchObjectError
        | Some [] => throw NoSuchObjectError
        | Some [entry] => ret (Some entry)
        | Some items => throw (UnexpectedMatches (length items) username ByUsername)
        end
    end.

Definition findGroups_options (user : Entry) : SearchOptions :=
  {| filter := (fun f => f user) <$> groupSearchFilter opts;
     scope := groupSearchScope opts;
     attributes := default (ldapADattributes env) (groupSearchAttributes opts);
     timeLimit := optTimeLimit opts;
     sizeLimit := optSizeLimit opts |}.

(** [findGroups]: [user.groups = result]. *)
Definition findGroups (user : Entry) : M Entry :=
  result <-- search (or_default (groupSearchBase opts) (searchBase opts))
                    (findGroups_options user) ;;
  match result with
  | Some items => ret (set_prop user "groups" (VEntries items))
  | None => ret (remove_prop user "groups")
  end.

(** [this.getGroups], chosen by the constructor. *)
Definition getGroups (user : Entry) : M Entry :=
  match groupSearchFilter opts with
  | Some _ => if truthy_opt (groupSearchBase opts) then findGroups user else ret user
  | None => ret user
  end.

(** The two cache writes that follow a successful lookup. *)
Definition cache_lookup_result (first_key : string) (user : Entry) : M unit :=
  configured <-- gets has_cache ;;
  if configured
  then cache_set first_key {| user := user; password := LDAP_PASSWORD_NULL |} ;;;
       if truthy (prop user "sAMAccountName")
       then cache_set ("user:" +:+ ToString (prop user "sAMAccountName"))
                      {| user := user; password := LDAP_PASSWORD_NULL |}
       else ret tt
  else ret tt.

(** [searchByUsername] *)
Definition searchByUsername (userByUsername : string) (cache : bool)
    : M (option Entry) :=
  hit <-- cache_probe ("user:" +:+ userByUsername) cache ;;
  match hit with
  | Some cached => ret (Some cached)
  | None =>
      search <-- findUser userByUsername true ;;
      match search with
      | Some user =>
          cache_lookup_result ("dn:" +:+ ToString (prop user "dn")) user ;;;
          ret (Some user)
      | None => ret None
      end
  end.

Definition searchByDN_options : SearchOptions :=
  {| filter := None;
     scope := searchScope opts;
     attributes := default ["*"] (searchAttributes opts);
     timeLimit := optTimeLimit opts;
     sizeLimit := optSizeLimit opts |}.

(** [searchByDN] *)
Definition searchByDN (userByDN : string) (cache : bool) : M Entry :=
  let cachedID := "dn:" +:+ userByDN in
  hit <-- cache_probe cachedID cache ;;
  match hit with
  | Some cached => ret cached
  | None =>
      result <-- search userByDN searchByDN_options ;;
      user <-- match result with
               | None => throw (JsError "No result from search")
               | Some [] => throw NoSuchObjectError
               | Some [entry] => ret entry
               | Some items => throw (UnexpectedMatches (length items) userByDN ByDN)
               end ;;
      cache_lookup_result cachedID user ;;;
      ret user
  end.

(** *** Modification *)

(** The body of the two [data.forEach] loops. *)
Definition skip_photo (d : Change) : Change :=
  if String.eqb (type (modification d)) "thumbnailPhoto"
     || String.eqb (type (modification d)) "jpegPhoto"
  then {| operation := operation d;
          modification := {| type := type (modification d);
                             vals := ValString "...skipped..." |} |}
  else d.

(** [data.forEach((d, i, a) => ...)]: the objects the array refers to are
    updated where they live. *)
Definition skip_photos (data : list loc) : M unit :=
  update (fun s => set_heap (foldl (fun h l => alter skip_photo l h) (heap s) data) s).

(** The array as the client sees it when it is handed over. *)
Definition read_changes (data : list loc) : M (list Change) :=
  gets (fun s => omap (fun l => heap s !! l) data).

(** [if (this.userCache) { del(dn); if (username) del(username) }] *)
Definition reset_cache (dn : string) (username : option string) : M unit :=
  configured <-- gets has_cache ;;
  if configured
  then cache_del dn ;;;
       match username with
       | Some u => if truthy_string u then cache_del u else ret tt
       | None => ret tt
       end
  else ret tt.

Definition settled {A} (p : option (Result A)) (pending : M A) : M A :=
  match p with
  | Some (Ok a) => ret a
  | Some (Err e) => throw e
  | None => pending
  end.

(** [modify]. In the callback of [userClient.modify] the rejection is not
    followed by a [return]; [p] is the promise's state. *)
Definition modify (dn : string) (data : list loc) (username password : option string)
    : M bool :=
  adminBind ;;;
  if truthy_opt password
  then
    let pw := default "" password in
    update (add_event (UserBind (Some (VString dn)) pw)) ;;;
    let error := user_bind dir (Some (VString dn)) pw in
    skip_photos data ;;;
    match error with
    | Some e => throw e
    | None =>
        changes <-- read_changes data ;;
        update (add_event (UserModify dn changes)) ;;;
        let searchError := user_modify dir dn changes in
        let p := match searchError with
                 | Some e => settle None (Err e)
                 | None => None
                 end in
        reset_cache dn username ;;;
        settled (settle p (Ok true)) (ret true)
    end
  else
    changes <-- read_changes data ;;
    update (add_event (AdminModify dn changes)) ;;;
    let searchError := admin_modify dir dn changes in
    skip_photos data ;;;
    match searchError with
    | Some e => throw e
    | None => reset_cache dn username ;;; ret true
    end.

(** *** Authentication *)

(** [authenticateInternal] *)
Definition authenticateInternal (username password : string) : M Entry :=
  found <-- findUser username true ;;
  match found with
  | None => throw (NotFoundUser username)
  | Some foundUser =>
      let name := prop foundUser (or_default (bindProperty opts) "dn") in
      update (add_event (UserBind name password)) ;;;
      match user_bind dir name password with
      | Some bindError => throw bindError
      | None => getGroups foundUser
      end
  end.

(** The write both paths of [authenticate] make. *)
Definition cache_authenticated (user : Entry) (password : string) : M unit :=
  cache_set ("user:" +:+ ToString (prop user "sAMAccountName"))
            {| user := user; password := bcrypt_hashSync rt password (salt env) |}.

(** The test of the cached path of [authenticate]. *)
Definition cached_credentials_valid (cached : option LDAPCache) (pw : string) : bool :=
  match cached with
  | Some c =>
      truthy (prop (user c) "sAMAccountName")
      && truthy_string (password c)
      && (String.eqb (password c) LDAP_PASSWORD_NULL
          || bcrypt_compareSync rt pw (password c))
  | None => false
  end.

(** The body of the background [async] function of [authenticate]. *)
Definition refresh (username password : string) (cached : LDAPCache) : M unit :=
  try_catch
    (user <-- authenticateInternal username password ;;
     configured <-- gets has_cache ;;
     if negb (String.eqb (JSON_stringify rt user) (JSON_stringify rt (Service.user cached)))
        && configured
     then cache_authenticated user password
     else ret tt)
    (fun error => ret tt).

Definition run_task (t : Task) : M unit :=
  match t with
  | Refresh username password cached => refresh username password cached
  end.

(** [authenticate] *)
Definition authenticate (username password : string) (cache : bool) : M Entry :=
  if negb (truthy_string password) then throw (JsError "No password given")
  else
    let cachedID := "user:" +:+ username in
    configured <-- gets has_cache ;;
    hit <-- (if cache && configured
             then cached <-- cache_get cachedID ;;
                  match cached with
                  | Some c =>
                      if cached_credentials_valid cached password
                      then update (add_task (Refresh username password c)) ;;;
                           ret (Some (user c))
                      else ret None
                  | None => ret None
                  end
             else ret None) ;;
    match hit with
    | Some cached_user => ret cached_user
    | None =>
        user <-- authenticateInternal username password ;;
        configured <-- gets has_cache ;;
        (if configured then cache_authenticated user password else ret tt) ;;;
        ret user
    end.

End Operations.

(** The state the constructor leaves. *)
Definition initial_state (env : Env) (store : option (gmap string LDAPCache))
    (objects : gmap loc Change) : State :=
  {| adminBound := false;
     reconnectPending := reconnect (options env);
     connectListeners := 0;
     userCache := store;
     heap := objects;
     spawned := [];
     trace := [] |}.

End Service.

(* ===================================================================== *)
(** ** Reference definitions the properties are stated against *)
(* ===================================================================== *)

Module Reference.
Import JS Normalizer Service.









(** The value an escaped filter substring stands for: a backslash and two
    hexadecimal digits are one character (RFC 4515, section 3). *)
Definition hex_digit_value (c : ascii) : option N :=
  let n := N_of_ascii c in
  (if (48 <=? n) && (n <=? 57) then Some (n - 48)
   else if (65 <=? n) && (n <=? 70) then Some (n - 55)
   else if (97 <=? n) && (n <=? 102) then Some (n - 87)
   else None)%N.

Fixpoint filter_value (s : string) : string :=
  match s with
  | EmptyString => EmptyString
  | String c (String h (String l r) as t) =>
      match Ascii.eqb c "\", hex_digit_value h, hex_digit_value l with
      | true, Some x, Some y => String (ascii_of_N (16 * x + y)) (filter_value r)
      | _, _, _ => String c (filter_value t)
      end
  | String c t => String c (filter_value t)
  end.

(** Character-wise substitution: what a global replacement of one character
    by a text without substitution patterns amounts to. *)
Fixpoint subst_char (c : ascii) (by_text : string) (s : string) : string :=
  match s with
  | EmptyString => EmptyString
  | String x r =>
      if Ascii.eqb c x then by_text +:+ subst_char c by_text r
      else String x (subst_char c by_text r)
  end.

Fixpoint no_dollar (s : string) : bool :=
  match s with
  | EmptyString => true
  | String c r => negb (Ascii.eqb c "$") && no_dollar r
  end.

(** The six replacements, character by character. *)
Definition sanitize_steps (s : string) : string :=
  subst_char "/" "\2f"
    (subst_char Ascii.zero "\00"
       (subst_char "\" "\5c"
          (subst_char ")" "\29"
             (subst_char "(" "\28"
                (subst_char "*" "\2a" s))))).

(** [well_escaped s]: [s] holds none of the characters [* ( ) NUL /], and
    every backslash in it opens one of the escapes [\5c], [\00], [\2f]. *)
Fixpoint well_escaped (s : string) : bool :=
  match s with
  | EmptyString => true
  | String c t =>
      if Ascii.eqb c "\"
      then match t with
           | String h (String l r) =>
               (String.eqb (String h (String l EmptyString)) "5c"
                || String.eqb (String h (String l EmptyString)) "00"
                || String.eqb (String h (String l EmptyString)) "2f")
               && well_escaped r
           | _ => false
           end
      else negb (Ascii.eqb c "*" || Ascii.eqb c "(" || Ascii.eqb c ")"
                 || Ascii.eqb c Ascii.zero || Ascii.eqb c "/")
           && well_escaped t
  end.



(** *** States *)

(** [frame s s']: from [s] to [s'] no [Change] object was touched, no
    background task was started and the cache was neither installed nor
    removed. *)
Definition frame (s s' : State) : Prop :=
  heap s' = heap s /\ spawned s' = spawned s /\ has_cache s' = has_cache s.

Definition preserves {A} (c : M A) : Prop := forall s, frame s (snd (c s)).

(** The keys [reset_cache] deletes are [dn] and [username] as they are. *)
Definition reset_store (dn : string) (username : option string)
    (store : gmap string LDAPCache) : gmap string LDAPCache :=
  match username with
  | Some u => if truthy_string u then delete u (delete dn store) else delete dn store
  | None => delete dn store
  end.

(** *** Dates *)

(** The instant of a civil UTC date from 1970 on, by counting days. *)
Definition year_length (y : Z) : Z :=
  if ((y mod 4 =? 0) && negb (y mod 100 =? 0)) || (y mod 400 =? 0) then 366 else 365.

Fixpoint days_of_years (first : Z) (n : nat) : Z :=
  match n with
  | O => 0
  | S k => year_length first + days_of_years (first + 1) k
  end.

Definition month_length (y m : Z) : Z :=
  match m with
  | 2 => year_length y - 337
  | 4 | 6 | 9 | 11 => 30
  | _ => 31
  end.

Fixpoint days_of_months (y first : Z) (n : nat) : Z :=
  match n with
  | O => 0
  | S k => month_length y first + days_of_months y (first + 1) k
  end.

(** Milliseconds from 1970-01-01T00:00:00Z to the given date and time
    (month and day counted from 1). *)
Definition utc_instant (y m d hh mm ss : Z) : Z :=
  (((days_of_years 1970 (Z.to_nat (y - 1970))
     + days_of_months y 1 (Z.to_nat (m - 1)) + (d - 1)) * 24 + hh) * 60 + mm) * 60000
  + ss * 1000.

End Reference.

(* ===================================================================== *)
(** ** A small directory, to run the operations on *)
(* ===================================================================== *)

Module Scenario.
Import JS Normalizer Service.

Definition quote (s : string) : string :=
  String (ascii_of_nat 34) (s +:+ String (ascii_of_nat 34) EmptyString).

(** A serializer in the manner of [JSON.stringify]. *)
Fixpoint stringify_value (v : Value) : string :=
  match v with
  | VString s => quote s
  | VStrings l => "[" +:+ String.concat "," (map quote l) +:+ "]"
  | VDate None => "null"
  | VDate (Some _) => quote "date"
  | VEntries es =>
      "[" +:+ String.concat ","
                (map (fun e =>
                        "{" +:+ String.concat ","
                                  (map (fun kv => quote (fst kv) +:+ ":"
                                                  +:+ stringify_value (snd kv)) e)
                        +:+ "}") es)
      +:+ "]"
  end.

Definition stringify (e : Entry) : string := stringify_value (VEntries [e]).

(** Stand-ins for the library functions: the hash of [p] under salt [sl] is
    [sl] followed by [p], and the comparison knows the salt ["$2b$06$"]. *)
Definition toy_runtime : Runtime :=
  {| JSON_stringify := stringify;
     Date_toString := fun _ => "date";
     bcrypt_hashSync := fun p sl => sl +:+ p;
     bcrypt_compareSync := fun p h => String.eqb h ("$2b$06$" +:+ p) |}.

Definition alice : Entry :=
  [("dn", VString "cn=alice,dc=example"); ("sAMAccountName", VString "alice")].

Definition alice_dn : string := "cn=alice,dc=example".

Definition bob : Entry :=
  [("dn", VString "cn=bob,dc=example"); ("sAMAccountName", VString "bob")].

(** A directory that accepts every bind and every modification, and finds
    [found] whatever the search. *)
Definition directory (found : list Entry) : Directory :=
  {| admin_bind := fun _ _ => None;
     admin_search := fun _ _ => SearchStream found (StreamStatus 0);
     admin_modify := fun _ _ => None;
     user_bind := fun _ _ => None;
     user_modify := fun _ _ => None |}.

(** The same directory, refusing the modifications of the user connection. *)
Definition directory_refusing_user_modify (found : list Entry) : Directory :=
  {| admin_bind := fun _ _ => None;
     admin_search := fun _ _ => SearchStream found (StreamStatus 0);
     admin_modify := fun _ _ => None;
     user_bind := fun _ _ => None;
     user_modify := fun _ _ => Some (LdapError "InsufficientAccessRightsError") |}.

(** A directory whose admin bind is rejected. *)
Definition directory_rejecting_admin : Directory :=
  {| admin_bind := fun _ _ => Some (LdapError "InvalidCredentialsError");
     admin_search := fun _ _ => SearchNotObject;
     admin_modify := fun _ _ => None;
     user_bind := fun _ _ => None;
     user_modify := fun _ _ => None |}.

Definition module_options : LdapModuleOptions :=
  {| bindDN := Some "cn=admin,dc=example";
     bindCredentials := "secret";
     reconnect := true;
     searchBase := "dc=example";
     searchFilter := "(sAMAccountName={{username}})";
     searchScope := "sub";
     searchAttributes := None;
     optTimeLimit := None;
     optSizeLimit := None;
     groupSearchBase := None;
     groupSearchFilter := None;
     groupSearchScope := "sub";
     groupSearchAttributes := None;
     bindProperty := None |}.

Definition environment (d : Directory) : Env :=
  {| options := module_options;
     salt := "$2b$06$";
     ttl := 600;
     ldapADattributes := ["dn"; "sAMAccountName"];
     runtime := toy_runtime;
     client := d |}.

Definition photo_change : Change :=
  {| operation := "replace";
     modification := {| type := "jpegPhoto"; vals := ValBuffer [x89; x50] |} |}.

Definition title_change : Change :=
  {| operation := "replace";
     modification := {| type := "title"; vals := ValString "Dr" |} |}.

Definition objects : gmap loc Change :=
  <[1%nat := title_change]> (<[0%nat := photo_change]> ∅).

Definition trusted (u : Entry) : LDAPCache :=
  {| user := u; password := LDAP_PASSWORD_NULL |}.

(** The store after a [searchByDN] and a [searchByUsername] of alice. *)
Definition store_after_lookups : gmap string LDAPCache :=
  <["user:alice" := trusted alice]> (<["dn:cn=alice,dc=example" := trusted alice]> ∅).

(** A store that also holds records under the bare DN and the bare name. *)
Definition store_with_bare_keys : gmap string LDAPCache :=
  <["alice" := trusted alice]> (<["cn=alice,dc=example" := trusted alice]> store_after_lookups).

Definition env_ok : Env := environment (directory [alice]).

Definition env_refusing : Env := environment (directory_refusing_user_modify [alice]).

Definition env_rejecting : Env := environment directory_rejecting_admin.

Definition state_after_lookups : State :=
  initial_state env_ok (Some store_after_lookups) objects.

Definition state_with_bare_keys : State :=
  initial_state env_refusing (Some store_with_bare_keys) objects.

End Scenario.

(* ===================================================================== *)
(** ** Properties of the normalisation functions *)
(* ===================================================================== *)

Module NormalizerFacts.
Import JS Normalizer Reference.

(** *** Bytes, digits and base64 characters *)
















(** *** [GUIDtoString] *)














(** *** [fromLDAPString] *)

Lemma fromLDAPString_null (s : string) :
  fromLDAPString s = None <-> digit_pairs s = [].
Proof.
  unfold fromLDAPString, match_digit_pairs.
  destruct (digit_pairs s); split; (reflexivity || discriminate).
Qed.

Lemma Date_UTC_NaN_seconds (y m d h mi : Number) : Date_UTC y m d h mi NaN = NaN.
Proof. now destruct y, m, d, h, mi. Qed.

Lemma fromLDAPString_few_pairs (s : string) :
  (0 < length (digit_pairs s) < 7)%nat ->
  fromLDAPString s = Some InvalidDate.
Proof.
  intros [Hpos Hlt].
  unfold fromLDAPString, match_digit_pairs.
  destruct (digit_pairs s) as [|b0 b] eqn:E; [cbn in Hpos; lia|].
  assert (H6 : (b0 :: b) !! 6%nat = None) by (apply lookup_ge_None_2; lia).
  rewrite H6.
  change (parseInt10 (ToString_opt None)) with NaN.
  now rewrite Date_UTC_NaN_seconds.
Qed.

(** C4, the claim as stated fails: a string with two digit pairs is not
    mapped to [null], the result is an invalid [Date]. *)
Lemma fromLDAPString_short_not_null :
  length (digit_pairs "2023") = 2%nat
  /\ fromLDAPString "2023" = Some InvalidDate
  /\ fromLDAPString "2023" <> None.
Proof. repeat split. discriminate. Qed.

(** C4 (amended). [fromLDAPString] maps ["20230615143022Z"] to the instant
    2023-06-15T14:30:22Z, that is 1686839422000 ms after the epoch. It
    returns [null] exactly for the strings that hold no pair of adjacent
    digits; a string with at least one and fewer than seven pairs yields an
    invalid [Date] object, not [null]. *)
Theorem fromLDAPString_spec :
  fromLDAPString "20230615143022Z"
    = Some (new_Date_raw (Some (utc_instant 2023 6 15 14 30 22)))
  /\ utc_instant 2023 6 15 14 30 22 = 1686839422000
  /\ (forall s, fromLDAPString s = None <-> digit_pairs s = [])
  /\ (forall s, (0 < length (digit_pairs s) < 7)%nat ->
        fromLDAPString s = Some InvalidDate).
Proof.
  split; [reflexivity|]. split; [reflexivity|].
  split; [exact fromLDAPString_null | exact fromLDAPString_few_pairs].
Qed.

Lemma fromLDAPString_spec_witness :
  fromLDAPString "Z" = None /\ fromLDAPString "202306" = Some InvalidDate.
Proof.
  destruct fromLDAPString_spec as (_ & _ & Hnull & Hfew).
  split.
  - apply Hnull. reflexivity.
  - apply Hfew. change (0 < 3 < 7)%nat. lia.
Defined.

(** *** [sanitizeInput] *)

Lemma GetSubstitution_plain (matched str : string) (position : nat) (replacement : string) :
  no_dollar replacement = true ->
  GetSubstitution matched str position replacement = replacement.
Proof.
  induction replacement as [|c r IH]; [reflexivity|].
  cbn [no_dollar]. intros [Hc Hr]%andb_true_iff.
  apply negb_true_iff in Hc.
  cbn [GetSubstitution].
  destruct c as [[] [] [] [] [] [] [] []]; try discriminate Hc;
    destruct r; rewrite ?IH by assumption; reflexivity.
Qed.

Lemma replace_scan_char (c : ascii) (by_text str rest : string) (position : nat) :
  no_dollar by_text = true ->
  replace_scan (String c EmptyString) by_text str rest position 0
  = subst_char c by_text rest.
Proof.
  intros Hplain. revert position.
  induction rest as [|x r IH]; intros position; [reflexivity|].
  cbn [replace_scan subst_char String.prefix String.length Nat.sub].
  destruct (Ascii.eqb c x) eqn:E.
  - apply Ascii.eqb_eq in E. subst x.
    destruct (ascii_dec c c) as [_|N]; [|contradiction].
    assert (Hp : String.prefix "" r = true) by now destruct r.
    rewrite Hp, GetSubstitution_plain by assumption. now rewrite IH.
  - apply Ascii.eqb_neq in E.
    destruct (ascii_dec c x) as [->|_]; [contradiction|]. now rewrite IH.
Qed.

Lemma string_app_assoc (a b c : string) : (a +:+ b) +:+ c = a +:+ (b +:+ c).
Proof.
  induction a as [|x r IH]; [reflexivity|].
  change (String x ((r +:+ b) +:+ c) = String x (r +:+ (b +:+ c))). now rewrite IH.
Qed.

Lemma subst_char_app (c : ascii) (by_text a b : string) :
  subst_char c by_text (a +:+ b) = subst_char c by_text a +:+ subst_char c by_text b.
Proof.
  induction a as [|x r IH]; [reflexivity|].
  change (String x r +:+ b) with (String x (r +:+ b)).
  cbn [subst_char]. rewrite IH.
  destruct (Ascii.eqb c x); [|reflexivity].
  now rewrite string_app_assoc.
Qed.

Lemma sanitizeInput_steps (s : string) : sanitizeInput s = sanitize_steps s.
Proof.
  unfold sanitizeInput, sanitize_steps, replace_all, NUL.
  now rewrite !replace_scan_char by reflexivity.
Qed.

Lemma sanitize_steps_app (a b : string) :
  sanitize_steps (a +:+ b) = sanitize_steps a +:+ sanitize_steps b.
Proof. unfold sanitize_steps. now rewrite !subst_char_app. Qed.

Lemma well_escaped_app (a b : string) :
  well_escaped a = true -> well_escaped (a +:+ b) = well_escaped b.
Proof.
  assert (H : forall n a, (String.length a <= n)%nat ->
                well_escaped a = true -> well_escaped (a +:+ b) = well_escaped b).
  { clear a. induction n as [|n IH]; intros a Hlen Ha.
    - destruct a; [reflexivity | cbn in Hlen; lia].
    - destruct a as [|c t]; [reflexivity|].
      change (String c t +:+ b) with (String c (t +:+ b)).
      cbn [well_escaped] in Ha |- *.
      destruct (Ascii.eqb c "\").
      + destruct t as [|h [|l r]]; try discriminate Ha.
        change (String h (String l r) +:+ b) with (String h (String l (r +:+ b))).
        cbv beta iota.
        match type of Ha with
        | ?e && _ = true => destruct e; [|discriminate Ha]
        end.
        cbn [andb] in Ha |- *.
        apply IH; [cbn in Hlen; lia | assumption].
      + match type of Ha with
        | ?e && _ = true => destruct e; [|discriminate Ha]
        end.
        cbn [andb] in Ha |- *.
        apply IH; [cbn in Hlen; lia | assumption]. }
  now apply (H (String.length a)).
Qed.

Lemma sanitize_char_well_escaped (c : ascii) :
  well_escaped (sanitize_steps (String c EmptyString)) = true.
Proof. destruct c as [[] [] [] [] [] [] [] []]; reflexivity. Qed.

(** The text [sanitizeInput] returns holds no raw metacharacter, and its
    backslashes all open an escape. (What the escapes stand for is another
    matter: the escapes of [*], [(] and [)] come out escaped twice.) *)
Lemma sanitizeInput_well_escaped (input : string) :
  well_escaped (sanitizeInput input) = true.
Proof.
  rewrite sanitizeInput_steps.
  induction input as [|c r IH]; [reflexivity|].
  change (String c r) with (String c EmptyString +:+ r).
  rewrite sanitize_steps_app, well_escaped_app; [assumption|].
  apply sanitize_char_well_escaped.
Qed.


(** C8, the code at two inputs. The escape that [sanitizeInput] writes for
    an asterisk is escaped once more by its fourth replacement, so the
    sanitized text stands for a backslash followed by [2a], not for an
    asterisk. And a [$`] in the user name is a substitution pattern of the
    replacement in [findUser]: it copies the head of the filter template,
    with its parenthesis, into the filter. *)
Theorem sanitizeInput_divergence :
  sanitizeInput "*" = "\5c2a"
  /\ filter_value (sanitizeInput "*") = "\2a"
  /\ sanitizeInput "*$`" = "\5c2a$`"
  /\ user_search_filter "(sAMAccountName={{username}})" "*$`"
     = "(sAMAccountName=\5c2a(sAMAccountName=)".
Proof. vm_compute. repeat split. Qed.

End NormalizerFacts.

(* ===================================================================== *)
(** ** Properties of the service *)
(* ===================================================================== *)

Module ServiceFacts.
Import JS Normalizer Service Reference.

(** Runs the monad of a goal or hypothesis one layer down. *)
Ltac run_monad :=
  cbv beta iota zeta delta [bind ret throw update gets try_catch settled settle].

(** Reads a field of a state built by the setters. *)
Ltac state_simpl :=
  cbv [fst snd adminBound reconnectPending connectListeners userCache heap spawned
       trace set_adminBound set_userCache set_heap add_task add_event].

(** *** The admin session *)

Lemma emit_adminBound (s : State) :
  adminBound (emit_installReconnectListener s) = adminBound s.
Proof. unfold emit_installReconnectListener. now destruct (reconnectPending s). Qed.

Lemma emit_trace (s : State) : trace (emit_installReconnectListener s) = trace s.
Proof. unfold emit_installReconnectListener. now destruct (reconnectPending s). Qed.

Lemma emit_userCache (s : State) :
  userCache (emit_installReconnectListener s) = userCache s.
Proof. unfold emit_installReconnectListener. now destruct (reconnectPending s). Qed.

Lemma emit_heap (s : State) : heap (emit_installReconnectListener s) = heap s.
Proof. unfold emit_installReconnectListener. now destruct (reconnectPending s). Qed.

Lemma emit_spawned (s : State) :
  spawned (emit_installReconnectListener s) = spawned s.
Proof. unfold emit_installReconnectListener. now destruct (reconnectPending s). Qed.

(** A connection-level error of the admin client leaves it unbound, so
    that the next operation binds again. *)
Lemma handleErrorAdmin_unbound (s : State) :
  adminBound (snd (handleErrorAdmin s)) = false.
Proof. reflexivity. Qed.

(** C9. [adminBind] does nothing and succeeds when the admin connection is
    bound. Otherwise: without a configured [bindDN] it fails, no bind is sent
    and the connection stays unbound; a rejected bind fails with the
    client's error and leaves the connection unbound; an accepted bind
    succeeds and marks the connection bound. The connection is bound
    afterwards only if it was bound before or the bind was accepted. *)
Theorem adminBind_spec (env : Env) (s : State) :
  let credentials := bindCredentials (options env) in
  (adminBound s = true -> adminBind env s = (Ok true, s))
  /\ (adminBound s = false -> bindDN (options env) = None ->
        exists s', adminBind env s = (Err (JsError "bindDN is undefined"), s')
                   /\ adminBound s' = false /\ trace s' = trace s)
  /\ (forall dn e,
        adminBound s = false -> bindDN (options env) = Some dn ->
        admin_bind (client env) dn credentials = Some e ->
        exists s', adminBind env s = (Err e, s')
                   /\ adminBound s' = false
                   /\ trace s' = (trace s ++ [AdminBind dn credentials])%list)
  /\ (forall dn,
        adminBound s = false -> bindDN (options env) = Some dn ->
        admin_bind (client env) dn credentials = None ->
        exists s', adminBind env s = (Ok true, s')
                   /\ adminBound s' = true
                   /\ trace s' = (trace s ++ [AdminBind dn credentials])%list)
  /\ (forall r s',
        adminBind env s = (r, s') -> adminBound s' = true ->
        r = Ok true
        /\ (adminBound s = true
            \/ exists dn, bindDN (options env) = Some dn
                          /\ admin_bind (client env) dn credentials = None)).
Proof.
  intros credentials. unfold adminBind, onConnectAdmin. subst credentials.
  repeat split.
  - intros ->. reflexivity.
  - intros -> ->. run_monad. eexists. repeat split.
  - intros dn e -> -> He. run_monad. rewrite He. run_monad. cbn.
    eexists. repeat split.
  - intros dn -> -> He. run_monad. rewrite He. run_monad. cbn.
    destruct (reconnect (options env)); cbn; eexists; repeat split;
      rewrite ?emit_adminBound, ?emit_trace; reflexivity.
  - revert H H0. destruct (adminBound s) eqn:Hb.
    + now intros [= <- <-] _.
    + run_monad. destruct (bindDN (options env)) as [dn|]; cbn.
      * destruct (admin_bind (client env) dn (bindCredentials (options env))); cbn.
        -- intros [= <- <-]. discriminate.
        -- destruct (reconnect (options env)); now intros [= <- <-].
      * intros [= <- <-]. discriminate.
  - revert H H0. destruct (adminBound s) eqn:Hb; [now left|].
    run_monad. destruct (bindDN (options env)) as [dn|]; cbn.
    + destruct (admin_bind (client env) dn (bindCredentials (options env))) eqn:He; cbn.
      * intros [= <- <-]. discriminate.
      * intros _ _. right. now exists dn.
    + intros [= <- <-]. discriminate.
Qed.

(** *** What the lookups leave alone *)

Lemma frame_refl (s : State) : frame s s.
Proof. now repeat split. Qed.

Lemma frame_trans (s1 s2 s3 : State) : frame s1 s2 -> frame s2 s3 -> frame s1 s3.
Proof. intros (? & ? & ?) (? & ? & ?). repeat split; congruence. Qed.

Lemma frame_set_userCache (f : gmap string LDAPCache -> gmap string LDAPCache) (s : State) :
  frame s (set_userCache (f <$> userCache s) s).
Proof. repeat split. unfold has_cache. cbn. now destruct (userCache s). Qed.

Lemma preserves_ret {A} (a : A) : preserves (ret a).
Proof. intros s. apply frame_refl. Qed.

Lemma preserves_throw {A} (e : Error) : preserves (@throw A e).
Proof. intros s. apply frame_refl. Qed.

Lemma preserves_gets {A} (f : State -> A) : preserves (gets f).
Proof. intros s. apply frame_refl. Qed.

Lemma preserves_bind {A B} (c : M A) (k : A -> M B) :
  preserves c -> (forall a, preserves (k a)) -> preserves (bind c k).
Proof.
  intros Hc Hk s. unfold bind. specialize (Hc s).
  destruct (c s) as [[a|e] s1]; cbn in *; [|assumption].
  eapply frame_trans; [eassumption | apply Hk].
Qed.

Lemma preserves_update (f : State -> State) :
  (forall s, frame s (f s)) -> preserves (update f).
Proof. intros H s. apply H. Qed.

Lemma preserves_add_event (e : Event) : preserves (update (add_event e)).
Proof. apply preserves_update. intros s. now repeat split. Qed.

Lemma preserves_set_adminBound (b : bool) : preserves (update (set_adminBound b)).
Proof. apply preserves_update. intros s. now repeat split. Qed.

Lemma preserves_emit : preserves (update emit_installReconnectListener).
Proof.
  apply preserves_update. intros s. unfold frame, has_cache.
  now rewrite emit_heap, emit_spawned, emit_userCache.
Qed.

Lemma preserves_cache_get (key : string) : preserves (cache_get key).
Proof. intros s. now repeat split. Qed.

Lemma preserves_cache_set (env : Env) (key : string) (v : LDAPCache) :
  preserves (cache_set env key v).
Proof.
  apply preserves_update. intros s.
  destruct (frame_set_userCache (insert key v) s) as (? & ? & ?). now repeat split.
Qed.

Lemma preserves_cache_del (key : string) : preserves (cache_del key).
Proof.
  apply preserves_update. intros s.
  destruct (frame_set_userCache (delete key) s) as (? & ? & ?). now repeat split.
Qed.

Create HintDb preserves.
#[local] Hint Resolve preserves_ret preserves_throw preserves_gets preserves_add_event
  preserves_set_adminBound preserves_emit preserves_cache_get preserves_cache_set
  preserves_cache_del : preserves.

(** Splits a computation along its binds and case distinctions. *)
Ltac preserves_step :=
  match goal with
  | |- preserves (bind _ _) => apply preserves_bind; [|intros ?]
  | |- preserves (match ?x with _ => _ end) => destruct x
  | |- preserves (if ?b then _ else _) => destruct b
  | |- preserves _ => solve [auto with preserves]
  end.

Lemma preserves_adminBind (env : Env) : preserves (adminBind env).
Proof.
  intros s. unfold adminBind. destruct (adminBound s); [apply frame_refl|].
  revert s. change (preserves (onConnectAdmin env)). unfold onConnectAdmin.
  repeat preserves_step.
Qed.
#[local] Hint Resolve preserves_adminBind : preserves.

Lemma preserves_search (env : Env) (base : string) (o : SearchOptions) :
  preserves (search env base o).
Proof. unfold search. repeat preserves_step. Qed.
#[local] Hint Resolve preserves_search : preserves.

Lemma preserves_cache_probe (key : string) (cache : bool) :
  preserves (cache_probe key cache).
Proof. unfold cache_probe. repeat preserves_step. Qed.
#[local] Hint Resolve preserves_cache_probe : preserves.

Lemma preserves_findUser (env : Env) (username : string) (cache : bool) :
  preserves (findUser env username cache).
Proof. unfold findUser. repeat preserves_step. Qed.
#[local] Hint Resolve preserves_findUser : preserves.

Lemma preserves_getGroups (env : Env) (u : Entry) : preserves (getGroups env u).
Proof. unfold getGroups, findGroups. repeat preserves_step. Qed.
#[local] Hint Resolve preserves_getGroups : preserves.

Lemma preserves_authenticateInternal (env : Env) (username pw : string) :
  preserves (authenticateInternal env username pw).
Proof. unfold authenticateInternal. repeat preserves_step. Qed.
#[local] Hint Resolve preserves_authenticateInternal : preserves.

Lemma preserves_authenticate_live (env : Env) (username pw : string) :
  preserves (authenticate env username pw false).
Proof.
  unfold authenticate, cache_authenticated. cbn [andb]. repeat preserves_step.
Qed.

(** *** Authentication *)

(** C6. Whatever the user name, the cache flag and the state of the
    service, [authenticate] with the empty password fails with the error
    "No password given" and leaves the state as it was: nothing was read
    from the cache and nothing was sent to the directory. *)
Theorem authenticate_without_password (env : Env) (username : string)
    (cache : bool) (s : State) :
  authenticate env username "" cache s = (Err (JsError "No password given"), s).
Proof. reflexivity. Qed.

Lemma truthy_string_true (x : string) : x <> "" -> truthy_string x = true.
Proof. now destruct x. Qed.

Lemma cached_credentials_valid_spec (env : Env) (c : LDAPCache) (pw : string) :
  (forall p, bcrypt_compareSync (runtime env) p "" = false) ->
  cached_credentials_valid env (Some c) pw = true
  <-> truthy (prop (user c) "sAMAccountName") = true
      /\ (password c = LDAP_PASSWORD_NULL
          \/ bcrypt_compareSync (runtime env) pw (password c) = true).
Proof.
  intros Hempty. unfold cached_credentials_valid.
  rewrite !andb_true_iff, orb_true_iff, String.eqb_eq.
  split.
  - intros [[Hu _] Hp]. now split.
  - intros [Hu Hp]. repeat split; try assumption.
    destruct (password c) eqn:E; [|reflexivity].
    destruct Hp as [Hp|Hp]; [discriminate Hp|]. now rewrite Hempty in Hp.
Qed.

(** C7. With a password given, the cache configured and consulted, and a
    hash comparison that rejects the empty hash: [authenticate] answers from
    the cache, returning the cached user and starting the background
    re-authentication without any directory call, exactly when the store
    holds a record under [user:<username>] whose user has a truthy
    [sAMAccountName] and whose stored password is the sentinel or matches the
    given password under [bcrypt.compareSync]. In every other case, a record
    that fails the test included, it goes on as on a miss: the outcome is
    that of the live authentication run after the cache read. *)
Theorem authenticate_cached_path (env : Env) (username pw : string) (s : State)
    (store : gmap string LDAPCache) :
  pw <> "" ->
  userCache s = Some store ->
  (forall p, bcrypt_compareSync (runtime env) p "" = false) ->
  let key := "user:" +:+ username in
  let s1 := add_event (CacheGet key) s in
  let hit := exists c, store !! key = Some c
                       /\ truthy (prop (user c) "sAMAccountName") = true
                       /\ (password c = LDAP_PASSWORD_NULL
                           \/ bcrypt_compareSync (runtime env) pw (password c) = true) in
  (forall c,
      store !! key = Some c ->
      truthy (prop (user c) "sAMAccountName") = true ->
      password c = LDAP_PASSWORD_NULL
      \/ bcrypt_compareSync (runtime env) pw (password c) = true ->
      authenticate env username pw true s
      = (Ok (user c), add_task (Refresh username pw c) s1))
  /\ (~ hit ->
      authenticate env username pw true s = authenticate env username pw false s1)
  /\ (spawned (snd (authenticate env username pw true s)) <> spawned s <-> hit).
Proof.
  intros Hpw Hstore Hempty key s1 hit.
  assert (Hrun : authenticate env username pw true s
                 = match store !! key with
                   | Some c =>
                       if cached_credentials_valid env (Some c) pw
                       then (Ok (user c), add_task (Refresh username pw c) s1)
                       else authenticate env username pw false s1
                   | None => authenticate env username pw false s1
                   end).
  { unfold authenticate. rewrite (truthy_string_true _ Hpw). cbn [negb andb].
    run_monad. unfold has_cache at 1. rewrite Hstore. cbn [andb].
    unfold cache_get at 1. cbn [mbind option_bind]. rewrite Hstore. cbn [mbind option_bind].
    fold key. fold s1.
    assert (Hc1 : has_cache s1 = true) by (unfold has_cache; cbn; now rewrite Hstore).
    destruct (store !! key) as [c|]; [destruct (cached_credentials_valid env (Some c) pw)|];
      cbn; try reflexivity. }
  assert (Hlive : spawned (snd (authenticate env username pw false s1)) = spawned s).
  { destruct (preserves_authenticate_live env username pw s1) as (_ & -> & _).
    reflexivity. }
  repeat split.
  - intros c Hc Hu Hp. rewrite Hrun, Hc.
    now rewrite (proj2 (cached_credentials_valid_spec env c pw Hempty) (conj Hu Hp)).
  - intros Hmiss. rewrite Hrun.
    destruct (store !! key) as [c|] eqn:Hc; [|reflexivity].
    destruct (cached_credentials_valid env (Some c) pw) eqn:Hv; [|reflexivity].
    apply cached_credentials_valid_spec in Hv; [|assumption].
    destruct Hmiss. exists c. tauto.
  - intros Hsp. rewrite Hrun in Hsp.
    destruct (store !! key) as [c|] eqn:Hc; [|now rewrite Hlive in Hsp].
    destruct (cached_credentials_valid env (Some c) pw) eqn:Hv;
      [|now rewrite Hlive in Hsp].
    apply cached_credentials_valid_spec in Hv; [|assumption].
    exists c. tauto.
  - intros (c & Hc & Hu & Hp). rewrite Hrun, Hc.
    rewrite (proj2 (cached_credentials_valid_spec env c pw Hempty) (conj Hu Hp)).
    cbn. intros E. apply (f_equal (@length Task)) in E.
    rewrite length_app in E. cbn in E. lia.
Qed.

(** *** Single-entry lookups *)

Lemma cache_lookup_result_ok (env : Env) (key : string) (u : Entry) (s : State) :
  fst (cache_lookup_result env key u s) = Ok tt.
Proof.
  unfold cache_lookup_result. run_monad.
  destruct (has_cache s); [|reflexivity]. cbn.
  now destruct (truthy (prop u "sAMAccountName")).
Qed.

(** C5. Once the cache has not answered and the directory search has
    delivered its entries: [findUser] and [searchByDN] succeed with the entry
    when there is exactly one (and [searchByDN] then records it in the
    cache), fail with [NoSuchObjectError] when there is none, and fail with
    the error "unexpected number of matches" when there are several. *)
Theorem single_entry_lookup (env : Env) (cache : bool) (s s1 s2 : State)
    (items : list Entry) :
  (forall username,
      username <> "" ->
      cache_probe username cache s = (Ok None, s1) ->
      search env (searchBase (options env)) (findUser_options env username) s1
      = (Ok (Some items), s2) ->
      findUser env username cache s
      = match items with
        | [] => (Err NoSuchObjectError, s2)
        | [entry] => (Ok (Some entry), s2)
        | _ => (Err (UnexpectedMatches (length items) username ByUsername), s2)
        end)
  /\ (forall userByDN,
        cache_probe ("dn:" +:+ userByDN) cache s = (Ok None, s1) ->
        search env userByDN (searchByDN_options env) s1 = (Ok (Some items), s2) ->
        searchByDN env userByDN cache s
        = match items with
          | [] => (Err NoSuchObjectError, s2)
          | [entry] =>
              (Ok entry, snd (cache_lookup_result env ("dn:" +:+ userByDN) entry s2))
          | _ => (Err (UnexpectedMatches (length items) userByDN ByDN), s2)
          end).
Proof.
  split.
  - intros username Hne Hprobe Hsearch.
    unfold findUser. rewrite (truthy_string_true _ Hne). cbn [negb].
    unfold bind at 1. rewrite Hprobe.
    unfold bind at 1. rewrite Hsearch.
    now destruct items as [|e [|e' r]].
  - intros userByDN Hprobe Hsearch.
    unfold searchByDN. cbv zeta.
    unfold bind at 1. rewrite Hprobe.
    unfold bind at 1. rewrite Hsearch.
    destruct items as [|e [|e' r]]; try reflexivity.
    run_monad.
    pose proof (cache_lookup_result_ok env ("dn:" +:+ userByDN) e s2) as Hok.
    destruct (cache_lookup_result env ("dn:" +:+ userByDN) e s2) as [r' s3].
    cbn in Hok. now rewrite Hok.
Qed.

(** *** Modification *)

Lemma skip_photo_idempotent (d : Change) : skip_photo (skip_photo d) = skip_photo d.
Proof.
  unfold skip_photo.
  destruct (String.eqb (type (modification d)) "thumbnailPhoto"
            || String.eqb (type (modification d)) "jpegPhoto") eqn:E;
    cbn; now rewrite E.
Qed.

Lemma skip_photos_lookup (data : list loc) (h : gmap loc Change) (l : loc) :
  foldl (fun h l => alter skip_photo l h) h data !! l
  = if decide (l ∈ data) then skip_photo <$> h !! l else h !! l.
Proof.
  revert h. induction data as [|a data IH]; intros h.
  - cbn. destruct (decide (l ∈ [])) as [H|H]; [now apply elem_of_nil in H | reflexivity].
  - cbn [foldl]. rewrite IH.
    destruct (decide (a = l)) as [->|Hne].
    + rewrite lookup_alter_eq.
      destruct (decide (l ∈ l :: data)) as [_|H]; [|exfalso; apply H; left].
      destruct (decide (l ∈ data)); [|reflexivity].
      destruct (h !! l); cbn; [now rewrite skip_photo_idempotent | reflexivity].
    + rewrite lookup_alter_ne by assumption.
      destruct (decide (l ∈ data)) as [H|H];
        destruct (decide (l ∈ a :: data)) as [H'|H']; try reflexivity.
      * exfalso. apply H'. now right.
      * exfalso. apply elem_of_cons in H' as [->|H']; [now apply Hne | now apply H].
Qed.

Lemma modify_heap (env : Env) (dn : string) (data : list loc)
    (username password : option string) (s s1 : State) :
  adminBind env s = (Ok true, s1) ->
  heap (snd (modify env dn data username password s))
  = foldl (fun h l => alter skip_photo l h) (heap s) data.
Proof.
  intros Hbind.
  assert (Hheap : heap s1 = heap s).
  { pose proof (preserves_adminBind env s) as (H & _). now rewrite Hbind in H. }
  unfold modify. unfold bind at 1. rewrite Hbind. rewrite <- Hheap.
  unfold reset_cache, read_changes, skip_photos, cache_del.
  destruct (truthy_opt password).
  - run_monad.
    destruct (user_bind (client env) (Some (VString dn)) (default "" password));
      [reflexivity|].
    cbn -[foldl].
    match goal with |- context [user_modify ?d ?x ?y] => destruct (user_modify d x y) end;
      match goal with |- context [has_cache ?x] => destruct (has_cache x) end;
      try reflexivity;
      destruct username as [u|]; try reflexivity;
      destruct (truthy_string u); reflexivity.
  - run_monad.
    match goal with |- context [admin_modify ?d ?x ?y] => destruct (admin_modify d x y) end;
      [reflexivity|].
    cbn -[foldl].
    match goal with |- context [has_cache ?x] => destruct (has_cache x) end;
      try reflexivity;
      destruct username as [u|]; try reflexivity;
      destruct (truthy_string u); reflexivity.
Qed.

(** A [modify] whose admin bind fails does nothing more. *)
Lemma modify_admin_bind_failure (env : Env) (dn : string) (data : list loc)
    (username password : option string) (s s1 : State) (e : Error) :
  adminBind env s = (Err e, s1) ->
  modify env dn data username password s = (Err e, s1).
Proof. intros Hbind. unfold modify. unfold bind at 1. now rewrite Hbind. Qed.

(** C10. Once [modify] is past the admin bind, on the user-bind path and on
    the admin path alike and whether the directory accepts or refuses the
    bind or the modification: in the objects the caller's array refers to,
    every change of type [thumbnailPhoto] or [jpegPhoto] has its values
    replaced by the string '...skipped...', its operation and type kept;
    every other change, and every object outside the array, is as before. *)
Theorem modify_skips_photos (env : Env) (dn : string) (data : list loc)
    (username password : option string) (s s1 : State) :
  adminBind env s = (Ok true, s1) ->
  let s' := snd (modify env dn data username password s) in
  (forall l d,
      l ∈ data -> heap s !! l = Some d ->
      type (modification d) = "thumbnailPhoto" \/ type (modification d) = "jpegPhoto" ->
      heap s' !! l
      = Some {| operation := operation d;
                modification := {| type := type (modification d);
                                   vals := ValString "...skipped..." |} |})
  /\ (forall l d,
        l ∈ data -> heap s !! l = Some d ->
        type (modification d) <> "thumbnailPhoto" ->
        type (modification d) <> "jpegPhoto" ->
        heap s' !! l = Some d)
  /\ (forall l, l ∉ data -> heap s' !! l = heap s !! l).
Proof.
  intros Hbind s'. subst s'.
  rewrite (modify_heap env dn data username password s s1 Hbind).
  repeat split.
  - intros l d Hin Hl Hty. rewrite skip_photos_lookup.
    destruct (decide (l ∈ data)); [|contradiction].
    rewrite Hl. cbn. unfold skip_photo.
    destruct Hty as [-> | ->]; reflexivity.
  - intros l d Hin Hl H1 H2. rewrite skip_photos_lookup.
    destruct (decide (l ∈ data)); [|contradiction].
    rewrite Hl. cbn. unfold skip_photo.
    apply String.eqb_neq in H1, H2. now rewrite H1, H2.
  - intros l Hnot. rewrite skip_photos_lookup.
    now destruct (decide (l ∈ data)).
Qed.

(** *** The background re-authentication *)

(** C2, the claim as stated fails. Alice is cached with the sentinel as
    password proof; [authenticate] answers from the cache and starts the
    background task; the live result equals the cached user, and the task
    leaves the store as it was: the record still carries the sentinel, no
    fresh hash was written. *)
Lemma refresh_keeps_sentinel_record :
  let r := authenticate Scenario.env_ok "alice" "pw" true Scenario.state_after_lookups in
  let task := Refresh "alice" "pw" (Scenario.trusted Scenario.alice) in
  fst r = Ok Scenario.alice
  /\ spawned (snd r) = [task]
  /\ password (Scenario.trusted Scenario.alice) = LDAP_PASSWORD_NULL
  /\ fst (authenticateInternal Scenario.env_ok "alice" "pw" (snd r)) = Ok Scenario.alice
  /\ userCache (snd (run_task Scenario.env_ok task (snd r)))
     = Some Scenario.store_after_lookups
  /\ Scenario.store_after_lookups !! "user:alice"
     = Some (Scenario.trusted Scenario.alice)
  /\ bcrypt_hashSync Scenario.toy_runtime "pw" (salt Scenario.env_ok)
     <> LDAP_PASSWORD_NULL.
Proof.
  intros r task. subst r task.
  repeat apply conj; try (vm_compute; reflexivity).
  vm_compute. discriminate.
Qed.

(** C2 (amended). The background re-authentication started on a cache hit
    writes the cache only when the live authentication succeeds and the JSON
    text of the live user differs from that of the cached user: the record
    under [user:<sAMAccountName of the live user>] then becomes the live user
    with a fresh hash of the password. When the two texts are equal the
    state is the one the live authentication left, whatever the cached
    password proof was; when the live authentication fails the error is
    dropped and nothing is written. *)
Theorem refresh_spec (env : Env) (username pw : string) (cached : LDAPCache)
    (s : State) :
  let task := Refresh username pw cached in
  (forall u s1 store,
      authenticateInternal env username pw s = (Ok u, s1) ->
      userCache s1 = Some store ->
      fst (run_task env task s) = Ok tt
      /\ (JSON_stringify (runtime env) u <> JSON_stringify (runtime env) (user cached) ->
          userCache (snd (run_task env task s))
          = Some (<["user:" +:+ ToString env (prop u "sAMAccountName")
                    := {| user := u;
                          password := bcrypt_hashSync (runtime env) pw (salt env) |}]>
                    store))
      /\ (JSON_stringify (runtime env) u = JSON_stringify (runtime env) (user cached) ->
          snd (run_task env task s) = s1))
  /\ (forall e s1,
        authenticateInternal env username pw s = (Err e, s1) ->
        run_task env task s = (Ok tt, s1)).
Proof.
  intros task. subst task. cbn [run_task].
  split.
  - intros u s1 store Hlive Hstore.
    assert (Hrun : refresh env username pw cached s
                   = if negb (String.eqb (JSON_stringify (runtime env) u)
                                (JSON_stringify (runtime env) (user cached)))
                     then cache_authenticated env u pw s1
                     else (Ok tt, s1)).
    { unfold refresh, try_catch. unfold bind at 1. rewrite Hlive. run_monad.
      unfold has_cache. rewrite Hstore. rewrite andb_true_r.
      now destruct (negb _). }
    rewrite Hrun.
    destruct (String.eqb (JSON_stringify (runtime env) u)
                (JSON_stringify (runtime env) (user cached))) eqn:E; cbn [negb].
    + apply String.eqb_eq in E. repeat split. intros Hne. now destruct Hne.
    + apply String.eqb_neq in E. repeat split; [|intros Heq; now destruct E].
      intros _. cbn. now rewrite Hstore.
  - intros e s1 Hlive. unfold refresh, try_catch. unfold bind at 1. now rewrite Hlive.
Qed.

(** *** Cache invalidation by [modify] *)

Lemma adminBind_userCache (env : Env) (s : State) :
  userCache (snd (adminBind env s)) = userCache s.
Proof.
  unfold adminBind. destruct (adminBound s); [reflexivity|].
  unfold onConnectAdmin. run_monad.
  destruct (bindDN (options env)) as [dn|]; [|reflexivity]. cbn.
  destruct (admin_bind (client env) dn (bindCredentials (options env))); [reflexivity|].
  cbn. destruct (reconnect (options env)); cbn; [|reflexivity].
  now rewrite emit_userCache.
Qed.

(** The store after [modify], on every path past the admin bind. On the
    user path the keys are deleted as soon as the user bind is accepted,
    whether the modification is accepted or refused. *)
Lemma modify_userCache (env : Env) (dn : string) (data : list loc)
    (username password : option string) (s s1 : State) :
  adminBind env s = (Ok true, s1) ->
  userCache (snd (modify env dn data username password s))
  = if truthy_opt password
    then match user_bind (client env) (Some (VString dn)) (default "" password) with
         | Some _ => userCache s
         | None => reset_store dn username <$> userCache s
         end
    else match admin_modify (client env) dn (omap (fun l => heap s !! l) data) with
         | Some _ => userCache s
         | None => reset_store dn username <$> userCache s
         end.
Proof.
  intros Hbind.
  assert (Hcache : userCache s1 = userCache s).
  { rewrite <- (adminBind_userCache env s). now rewrite Hbind. }
  assert (Hheap : heap s1 = heap s).
  { pose proof (preserves_adminBind env s) as (H & _). now rewrite Hbind in H. }
  unfold modify. unfold bind at 1. rewrite Hbind. rewrite <- Hcache, <- Hheap.
  clear Hbind Hcache Hheap. destruct s1 as [ab rp cl store hp sp tr].
  unfold reset_cache, read_changes, skip_photos, cache_del, reset_store, has_cache.
  cbn [userCache heap].
  destruct (truthy_opt password).
  - run_monad.
    destruct (user_bind (client env) (Some (VString dn)) (default "" password));
      [reflexivity|].
    cbn -[foldl].
    match goal with |- context [user_modify ?d ?x ?y] => destruct (user_modify d x y) end;
      destruct store;
      (destruct username as [u|]; [destruct (truthy_string u)|]);
      reflexivity.
  - run_monad. cbn -[foldl].
    destruct (admin_modify (client env) dn (omap (fun l => hp !! l) data));
      [reflexivity|].
    destruct store;
      (destruct username as [u|]; [destruct (truthy_string u)|]);
      reflexivity.
Qed.

(** C1, the code at two inputs.
    (a) A [modify] with a password whose modification the directory refuses
    fails with the directory's error, and the records under the keys [dn] and
    [username] are deleted all the same.
    (b) A [modify] that succeeds deletes the keys [dn] and [username] as
    given; the records the lookups wrote under [dn:<dn>] and
    [user:<username>] stay, and the next [searchByDN] is answered from the
    cache without a search. *)
Theorem modify_cache_reset_divergence :
  (let r := modify Scenario.env_refusing Scenario.alice_dn [0%nat]
              (Some "alice") (Some "pw") Scenario.state_with_bare_keys in
   fst r = Err (LdapError "InsufficientAccessRightsError")
   /\ Scenario.store_with_bare_keys !! Scenario.alice_dn
      = Some (Scenario.trusted Scenario.alice)
   /\ Scenario.store_with_bare_keys !! "alice" = Some (Scenario.trusted Scenario.alice)
   /\ (userCache (snd r) ≫= fun c => c !! Scenario.alice_dn) = None
   /\ (userCache (snd r) ≫= fun c => c !! "alice") = None
   /\ trace (snd r)
      = [AdminBind "cn=admin,dc=example" "secret";
         UserBind (Some (VString Scenario.alice_dn)) "pw";
         UserModify Scenario.alice_dn [skip_photo Scenario.photo_change];
         CacheDel Scenario.alice_dn;
         CacheDel "alice"])
  /\ (let r := modify Scenario.env_ok Scenario.alice_dn [0%nat]
                 (Some "alice") None Scenario.state_after_lookups in
      fst r = Ok true
      /\ userCache (snd r) = Some Scenario.store_after_lookups
      /\ Scenario.store_after_lookups !! ("dn:" +:+ Scenario.alice_dn)
         = Some (Scenario.trusted Scenario.alice)
      /\ Scenario.store_after_lookups !! "user:alice"
         = Some (Scenario.trusted Scenario.alice)
      /\ searchByDN Scenario.env_ok Scenario.alice_dn true (snd r)
         = (Ok Scenario.alice,
            add_event (CacheGet ("dn:" +:+ Scenario.alice_dn)) (snd r))).
Proof. split; intros r; subst r; repeat apply conj; vm_compute; reflexivity. Qed.

(** *** The theorems at concrete inputs *)

Lemma adminBind_spec_witness :
  (exists s', adminBind Scenario.env_ok Scenario.state_after_lookups = (Ok true, s')
              /\ adminBound s' = true
              /\ trace s' = [AdminBind "cn=admin,dc=example" "secret"])
  /\ (exists s', adminBind Scenario.env_rejecting Scenario.state_after_lookups
                 = (Err (LdapError "InvalidCredentialsError"), s')
                 /\ adminBound s' = false
                 /\ trace s' = [AdminBind "cn=admin,dc=example" "secret"]).
Proof.
  split.
  - destruct (adminBind_spec Scenario.env_ok Scenario.state_after_lookups)
      as (_ & _ & _ & H & _).
    exact (H "cn=admin,dc=example" eq_refl eq_refl eq_refl).
  - destruct (adminBind_spec Scenario.env_rejecting Scenario.state_after_lookups)
      as (_ & _ & H & _).
    exact (H "cn=admin,dc=example" (LdapError "InvalidCredentialsError")
             eq_refl eq_refl eq_refl).
Defined.

Lemma authenticate_cached_path_witness :
  authenticate Scenario.env_ok "alice" "pw" true Scenario.state_after_lookups
  = (Ok Scenario.alice,
     add_task (Refresh "alice" "pw" (Scenario.trusted Scenario.alice))
       (add_event (CacheGet "user:alice") Scenario.state_after_lookups)).
Proof.
  refine (proj1 (authenticate_cached_path Scenario.env_ok "alice" "pw"
                   Scenario.state_after_lookups Scenario.store_after_lookups _ _ _)
            (Scenario.trusted Scenario.alice) _ _ _).
  - discriminate.
  - reflexivity.
  - intros p. reflexivity.
  - reflexivity.
  - reflexivity.
  - left. reflexivity.
Defined.

Lemma single_entry_lookup_witness :
  fst (findUser Scenario.env_ok "alice" false Scenario.state_after_lookups)
  = Ok (Some Scenario.alice)
  /\ fst (searchByDN Scenario.env_ok Scenario.alice_dn false Scenario.state_after_lookups)
     = Ok Scenario.alice.
Proof.
  pose (s2 := snd (search Scenario.env_ok "dc=example"
                     (findUser_options Scenario.env_ok "alice")
                     Scenario.state_after_lookups)).
  pose (s3 := snd (search Scenario.env_ok Scenario.alice_dn
                     (searchByDN_options Scenario.env_ok)
                     Scenario.state_after_lookups)).
  split.
  - rewrite (proj1 (single_entry_lookup Scenario.env_ok false
                      Scenario.state_after_lookups Scenario.state_after_lookups
                      s2 [Scenario.alice]) "alice");
      [reflexivity | discriminate | reflexivity | reflexivity].
  - rewrite (proj2 (single_entry_lookup Scenario.env_ok false
                      Scenario.state_after_lookups Scenario.state_after_lookups
                      s3 [Scenario.alice]) Scenario.alice_dn);
      [reflexivity | reflexivity | reflexivity].
Defined.

Lemma modify_skips_photos_witness :
  heap (snd (modify Scenario.env_refusing Scenario.alice_dn [0%nat; 1%nat]
               (Some "alice") (Some "pw") Scenario.state_with_bare_keys)) !! 0%nat
  = Some {| operation := "replace";
            modification := {| type := "jpegPhoto";
                               vals := ValString "...skipped..." |} |}.
Proof.
  refine (proj1 (modify_skips_photos Scenario.env_refusing Scenario.alice_dn
                   [0%nat; 1%nat] (Some "alice") (Some "pw")
                   Scenario.state_with_bare_keys
                   (snd (adminBind Scenario.env_refusing Scenario.state_with_bare_keys))
                   _)
            0%nat Scenario.photo_change _ _ _).
  - reflexivity.
  - apply list_elem_of_here.
  - reflexivity.
  - right. reflexivity.
Defined.

Lemma refresh_spec_witness :
  let stale := Scenario.trusted Scenario.bob in
  userCache (snd (run_task Scenario.env_ok (Refresh "alice" "pw" stale)
                    Scenario.state_after_lookups))
  = Some (<["user:alice" := {| user := Scenario.alice; password := "$2b$06$pw" |}]>
            Scenario.store_after_lookups).
Proof.
  refine (proj1 (proj2 (proj1 (refresh_spec Scenario.env_ok "alice" "pw"
                                 (Scenario.trusted Scenario.bob)
                                 Scenario.state_after_lookups)
                          Scenario.alice
                          (snd (authenticateInternal Scenario.env_ok "alice" "pw"
                                  Scenario.state_after_lookups))
                          Scenario.store_after_lookups _ _)) _).
  - reflexivity.
  - reflexivity.
  - discriminate.
Defined.

End ServiceFacts.
